(** * call_llm: a cached, logged client for a local Ollama model

    Shallow embedding of [utils/call_llm.py] and the properties of its
    single entry point [call_llm].

    The Python function talks to four things outside itself: the process
    environment, the cache file [llm_cache.json], the logger and the Ollama
    endpoint.  They are gathered in a [World]; a Python statement is a
    function from the world to a [Run]: what the statement produced (a value
    or a raised exception), the world it leaves, and the events it emitted,
    in order. *)

From Stdlib Require Import String Ascii List Bool ZArith NArith Lia.
From stdpp Require Import base option gmap strings list fin_maps.

Local Open Scope string_scope.
Local Open Scope list_scope.

(** ** Python values and exceptions *)

#[local] Set Warnings "-register-all".

(** What [json.load] can return.  A float is kept as its literal. *)
Inductive json : Type :=
| JNull
| JBool (b : bool)
| JInt (n : Z)
| JFloat (literal : string)
| JStr (s : string)
| JList (l : list json)
| JDict (d : gmap string json).

(** Exception classes that the code names or that reach it.  [OSError] is
    what Python 3 calls [IOError]; its subclasses (PermissionError,
    FileNotFoundError, IsADirectoryError, ...) are told apart by their
    message only.  The classes up to [OtherException] derive from
    [Exception]; [KeyboardInterrupt], [SystemExit] and the classes under
    [OtherBaseException] (GeneratorExit, asyncio.CancelledError, ...)
    derive from [BaseException] only. *)
Inductive exn_class : Type :=
| JSONDecodeError
| OSError
| UnicodeDecodeError
| TypeError
| KeyError
| OtherException (name : string)
| KeyboardInterrupt
| SystemExit
| OtherBaseException (name : string).

(** An exception and the text of [str(e)]. *)
Record exn : Type := Exn { exn_cls : exn_class; exn_str : string }.

(** ** The world *)

(** The result of opening the cache file for reading and parsing it. *)
Inductive read_outcome : Type :=
| ReadOk (v : json)
| ReadRaises (e : exn).

Inductive file_state : Type :=
| Absent
| Present (r : read_outcome).

(** What happens on [open(cache_file, 'w')] followed by [json.dump]:
    - [Writable]: the file is replaced by the serialised value;
    - [OpenDenied detail]: [open] raises OSError, the file is untouched;
    - [DeviceFull detail parse_msg]: [open] truncated the file, the write
      raised OSError; the partial text left behind no longer parses and a
      later [json.load] raises JSONDecodeError with [parse_msg]. *)
Inductive write_behaviour : Type :=
| Writable
| OpenDenied (detail : string)
| DeviceFull (detail : string) (parse_msg : string).

(** Lines 65-72: [ollama.generate(...)], the subscript ['response'] and the
    call of [strip]: either the generated text is obtained, or one of the
    three raises. *)
Inductive gen_outcome : Type :=
| GenOk (text : string)
| GenRaises (e : exn).

Record World : Type := mkWorld {
  environ : gmap string string;
  disk : file_state;
  device : write_behaviour;
  ollama : string -> string -> gen_outcome;
  (** what other processes do to the cache file while [ollama.generate]
      blocks (line 85: "in case another process modified it") *)
  others : file_state -> file_state
}.

Definition set_disk (fs : file_state) (w : World) : World :=
  mkWorld (environ w) fs (device w) (ollama w) (others w).

Definition set_environ (env : gmap string string) (w : World) : World :=
  mkWorld env (disk w) (device w) (ollama w) (others w).

(** ** Events *)

Inductive level : Type := INFO | WARNING | ERROR.

(** An f-string: literal text and interpolated values [{x}]. *)
Inductive piece : Type :=
| Lit (s : string)
| Fmt (v : json).

Inductive event : Type :=
| EvLog (lvl : level) (msg : list piece)
| EvExists (found : bool)
| EvRead (r : json + exn)
| EvWrite (v : json) (failure : option exn)
| EvGenerate (model prompt : string) (r : gen_outcome).

(** ** Statements *)

Record Run (A : Type) : Type := mkRun {
  outcome : A + exn;
  final : World;
  emitted : list event
}.
Arguments mkRun {A} _ _ _.
Arguments outcome {A} _.
Arguments final {A} _.
Arguments emitted {A} _.

Definition Py (A : Type) : Type := World -> Run A.

Definition py_ret {A} (a : A) : Py A := fun w => mkRun (inl a) w [].

(** The events of a statement come after those emitted before it. *)
Definition after {A} (tr : list event) (r : Run A) : Run A :=
  match r with
  | mkRun o w tr' => mkRun o w (tr ++ tr')
  end.

Definition py_bind {A B} (m : Py A) (k : A -> Py B) : Py B :=
  fun w =>
    match m w with
    | mkRun (inl a) w' tr => after tr (k a w')
    | mkRun (inr e) w' tr => mkRun (inr e) w' tr
    end.

#[export] Instance Py_ret : MRet Py := @py_ret.
#[export] Instance Py_bind : MBind Py := fun A B k m => py_bind m k.
#[export] Instance Py_fmap : FMap Py :=
  fun A B f m => py_bind m (fun a => py_ret (f a)).

Definition raise {A} (e : exn) : Py A := fun w => mkRun (inr e) w [].

Definition emit (ev : event) : Py unit := fun w => mkRun (inl tt) w [ev].

(** [try: body except <classes> as e: handler e] *)
Definition try_except {A} (body : Py A) (catches : exn -> bool)
    (handler : exn -> Py A) : Py A :=
  fun w =>
    match body w with
    | mkRun (inl a) w' tr => mkRun (inl a) w' tr
    | mkRun (inr e) w' tr =>
        if catches e then after tr (handler e w') else mkRun (inr e) w' tr
    end.

(** ** Strings: [str.strip] and the [in] operator *)

(** A Python [str] is modelled by the string of its UTF-8 bytes (a lone
    surrogate by its three bytes; it is no whitespace).  Equality,
    concatenation and the substring test on the bytes are those on the
    code points. *)

(** The code points on which [str.isspace] holds; [str.strip] removes
    them from both ends. *)
Definition whitespace_code_points : list N :=
  [0x9; 0xA; 0xB; 0xC; 0xD; 0x1C; 0x1D; 0x1E; 0x1F; 0x20; 0x85; 0xA0;
   0x1680; 0x2000; 0x2001; 0x2002; 0x2003; 0x2004; 0x2005; 0x2006; 0x2007;
   0x2008; 0x2009; 0x200A; 0x2028; 0x2029; 0x202F; 0x205F; 0x3000]%N.

(** The UTF-8 bytes of a code point below U+10000. *)
Definition utf8 (c : N) : list ascii :=
  if (c <? 0x80)%N then [ascii_of_N c]
  else if (c <? 0x800)%N then
    [ascii_of_N (0xC0 + c / 0x40); ascii_of_N (0x80 + c mod 0x40)]
  else
    [ascii_of_N (0xE0 + c / 0x1000);
     ascii_of_N (0x80 + (c / 0x40) mod 0x40);
     ascii_of_N (0x80 + c mod 0x40)].

Definition whitespace : list (list ascii) := map utf8 whitespace_code_points.

(** The rest of [l] after its prefix [w], when [w] is a prefix of [l]. *)
Fixpoint drop_prefix (w l : list ascii) : option (list ascii) :=
  match w, l with
  | [], _ => Some l
  | a :: w', b :: l' => if Ascii.eqb a b then drop_prefix w' l' else None
  | _ :: _, [] => None
  end.

(** The rest of [l] after one leading entry of the table. *)
Fixpoint drop_space (table : list (list ascii)) (l : list ascii)
    : option (list ascii) :=
  match table with
  | [] => None
  | w :: table' =>
      match drop_prefix w l with
      | Some rest => Some rest
      | None => drop_space table' l
      end
  end.

(** Leading entries of the table are dropped as long as there is one; the
    length of the bytes is fuel enough. *)
Fixpoint drop_spaces (table : list (list ascii)) (fuel : nat)
    (l : list ascii) : list ascii :=
  match fuel with
  | O => l
  | S fuel' =>
      match drop_space table l with
      | Some rest => drop_spaces table fuel' rest
      | None => l
      end
  end.

Definition lstrip (s : string) : string :=
  let l := list_ascii_of_string s in
  string_of_list_ascii (drop_spaces whitespace (List.length l) l).

(** Trailing whitespace is leading whitespace of the reversed bytes. *)
Definition rstrip (s : string) : string :=
  let l := rev (list_ascii_of_string s) in
  string_of_list_ascii
    (rev (drop_spaces (map (@rev ascii) whitespace) (List.length l) l)).

Definition strip (s : string) : string := rstrip (lstrip s).

(** The bytes are a sequence of entries of the table. *)
Inductive spaces (table : list (list ascii)) : list ascii -> Prop :=
| spaces_nil : spaces table []
| spaces_cons (w l : list ascii) :
    In w table -> spaces table l -> spaces table (w ++ l).

(** The string consists of whitespace code points only. *)
Definition all_space (s : string) : Prop :=
  spaces whitespace (list_ascii_of_string s).



(** A string given by its bytes. *)
Definition bytes (l : list N) : string :=
  string_of_list_ascii (map ascii_of_N l).

(** [needle in hay] for two strings. *)
Fixpoint str_contains (needle hay : string) : bool :=
  String.prefix needle hay
  || match hay with
     | EmptyString => false
     | String _ hay' => str_contains needle hay'
     end.

(** ** The primitives the function calls *)

Definition cache_file : string := "llm_cache.json".

(** The logger has level INFO and a single file handler: every record of
    level INFO, WARNING or ERROR is appended. *)
Definition logger_info (msg : list piece) : Py unit := emit (EvLog INFO msg).
Definition logger_warning (msg : list piece) : Py unit := emit (EvLog WARNING msg).
Definition logger_error (msg : list piece) : Py unit := emit (EvLog ERROR msg).

(** [os.getenv(name, default)] *)
Definition os_getenv (name default : string) : Py string :=
  fun w => mkRun (inl (match environ w !! name with
                       | Some v => v
                       | None => default
                       end)) w [].

(** [os.path.exists(cache_file)] *)
Definition os_path_exists : Py bool :=
  fun w =>
    match disk w with
    | Absent => mkRun (inl false) w [EvExists false]
    | Present _ => mkRun (inl true) w [EvExists true]
    end.

(** [with open(cache_file, 'r') as f: json.load(f)] *)
Definition open_json_load : Py json :=
  fun w =>
    match disk w with
    | Absent =>
        let e := Exn OSError
                   "[Errno 2] No such file or directory: 'llm_cache.json'" in
        mkRun (inr e) w [EvRead (inr e)]
    | Present (ReadOk v) => mkRun (inl v) w [EvRead (inl v)]
    | Present (ReadRaises e) => mkRun (inr e) w [EvRead (inr e)]
    end.

(** [with open(cache_file, 'w') as f: json.dump(cache, f, indent=4)] *)
Definition open_json_dump (cache : json) : Py unit :=
  fun w =>
    match device w with
    | Writable =>
        mkRun (inl tt) (set_disk (Present (ReadOk cache)) w)
              [EvWrite cache None]
    | OpenDenied detail =>
        let e := Exn OSError detail in
        mkRun (inr e) w [EvWrite cache (Some e)]
    | DeviceFull detail parse_msg =>
        let e := Exn OSError detail in
        mkRun (inr e)
              (set_disk (Present (ReadRaises (Exn JSONDecodeError parse_msg))) w)
              [EvWrite cache (Some e)]
    end.

(** [ollama.generate(model=..., prompt=...)['response']]: the call blocks;
    when it comes back the cache file is as the other processes left it. *)
Definition ollama_generate (model prompt : string) : Py string :=
  fun w =>
    let w' := set_disk (others w (disk w)) w in
    match ollama w model prompt with
    | GenOk text => mkRun (inl text) w' [EvGenerate model prompt (GenOk text)]
    | GenRaises e => mkRun (inr e) w' [EvGenerate model prompt (GenRaises e)]
    end.

(** [except (json.JSONDecodeError, IOError)] *)
Definition is_JSONDecodeError_or_IOError (e : exn) : bool :=
  match exn_cls e with
  | JSONDecodeError | OSError => true
  | _ => false
  end.

(** [except IOError] *)
Definition is_IOError (e : exn) : bool :=
  match exn_cls e with
  | OSError => true
  | _ => false
  end.

(** [except Exception]: whatever derives from [BaseException] only is not
    caught. *)
Definition is_Exception (e : exn) : bool :=
  match exn_cls e with
  | KeyboardInterrupt | SystemExit | OtherBaseException _ => false
  | _ => true
  end.

Definition type_name (v : json) : string :=
  match v with
  | JNull => "NoneType"
  | JBool _ => "bool"
  | JInt _ => "int"
  | JFloat _ => "float"
  | JStr _ => "str"
  | JList _ => "list"
  | JDict _ => "dict"
  end.

Definition is_str (s : string) (v : json) : bool :=
  match v with
  | JStr t => String.eqb s t
  | _ => false
  end.

(** [prompt in cache] *)
Definition py_contains (cache : json) (prompt : string) : Py bool :=
  match cache with
  | JDict d => mret (match d !! prompt with Some _ => true | None => false end)
  | JList l => mret (existsb (is_str prompt) l)
  | JStr s => mret (str_contains prompt s)
  | v => raise (Exn TypeError
           ("argument of type '" +:+ type_name v +:+ "' is not iterable"))
  end.

(** [cache[prompt]] *)
Definition py_getitem (cache : json) (prompt : string) : Py json :=
  match cache with
  | JDict d =>
      match d !! prompt with
      | Some v => mret v
      | None => raise (Exn KeyError prompt)
      end
  | JList _ =>
      raise (Exn TypeError "list indices must be integers or slices, not str")
  | JStr _ =>
      raise (Exn TypeError "string indices must be integers, not 'str'")
  | v => raise (Exn TypeError
           ("'" +:+ type_name v +:+ "' object is not subscriptable"))
  end.

(** [cache[prompt] = value] *)
Definition py_setitem (cache : json) (prompt : string) (value : json) : Py json :=
  match cache with
  | JDict d => mret (JDict (<[prompt := value]> d))
  | JList _ =>
      raise (Exn TypeError "list indices must be integers or slices, not str")
  | v => raise (Exn TypeError
           ("'" +:+ type_name v +:+ "' object does not support item assignment"))
  end.

(** ** [call_llm] *)

(** Lines 41-50: [cache = {}], then the load guarded by [use_cache]. *)
Definition load_cache : Py json :=
  found ← os_path_exists;
  if found : bool then
    try_except open_json_load is_JSONDecodeError_or_IOError
      (fun e =>
         logger_warning [Lit "Failed to load cache file '";
                         Fmt (JStr cache_file);
                         Lit "': "; Fmt (JStr (exn_str e));
                         Lit ". Starting with empty cache."];;
         mret (JDict ∅))
  else mret (JDict ∅).

(** Lines 42-56; [Some v] stands for the [return cached_response]. *)
Definition lookup_cache (prompt : string) : Py (option json) :=
  cache ← load_cache;
  hit ← py_contains cache prompt;
  if hit : bool then
    cached_response ← py_getitem cache prompt;
    logger_info [Lit "RESPONSE (cached): "; Fmt cached_response];;
    mret (Some cached_response)
  else mret None.

(** Lines 60-75, the body of the [try]. *)
Definition generate_response (prompt : string) : Py string :=
  ollama_model ← os_getenv "OLLAMA_MODEL" "qwen2.5-32k";
  logger_info [Lit "Calling Ollama model: "; Fmt (JStr ollama_model)];;
  response ← ollama_generate ollama_model prompt;
  let response_text := strip response in
  logger_info [Lit "RESPONSE (Ollama): "; Fmt (JStr response_text)];;
  mret response_text.

(** Lines 77-81, the handler; what it returns is returned by [call_llm]. *)
Definition ollama_failed (e : exn) : Py string :=
  logger_error [Lit "Error calling Ollama: "; Fmt (JStr (exn_str e))];;
  mret ("Error: Could not get response from Ollama. Details: " +:+ exn_str e).

(** Lines 87-93. *)
Definition reload_cache : Py json :=
  found ← os_path_exists;
  if found : bool then
    try_except open_json_load is_JSONDecodeError_or_IOError
      (fun e =>
         logger_warning [Lit "Failed to reload cache before saving: ";
                         Fmt (JStr (exn_str e));
                         Lit ". Overwriting might occur."];;
         mret (JDict ∅))
  else mret (JDict ∅).

(** Lines 84-101. *)
Definition update_cache (prompt response_text : string) : Py unit :=
  cache ← reload_cache;
  cache ← py_setitem cache prompt (JStr response_text);
  try_except (open_json_dump cache) is_IOError
    (fun e =>
       logger_error [Lit "Failed to save cache to '"; Fmt (JStr cache_file);
                     Lit "': "; Fmt (JStr (exn_str e))]).

(** Lines 58-103: reached when caching is off or the lookup missed. *)
Definition live_call (prompt : string) (use_cache : bool) : Py json :=
  r ← try_except (inl <$> generate_response prompt) is_Exception
        (fun e => inr <$> ollama_failed e);
  match r with
  | inr message => mret (JStr message)
  | inl response_text =>
      (if use_cache then update_cache prompt response_text else mret tt);;
      mret (JStr response_text)
  end.

Definition call_llm (prompt : string) (use_cache : bool) : Py json :=
  logger_info [Lit "PROMPT: "; Fmt (JStr prompt)];;
  cached ← (if use_cache then lookup_cache prompt else mret None);
  match cached with
  | Some cached_response => mret cached_response
  | None => live_call prompt use_cache
  end.

(** ** Observing a run *)

(** The lookup stage of [call_llm]: lines 42-56 when caching is on,
    nothing when it is off. *)
Definition lookup_stage (p : string) (u : bool) : Py (option json) :=
  if u then lookup_cache p else mret None.

(** The model identifier line 61 reads. *)
Definition configured_model (w : World) : string :=
  match environ w !! "OLLAMA_MODEL" with
  | Some v => v
  | None => "qwen2.5-32k"
  end.

(** The endpoint invocations among the events, in order. *)
Fixpoint generations (tr : list event)
    : list (string * string * gen_outcome) :=
  match tr with
  | [] => []
  | EvGenerate model prompt r :: tr' => (model, prompt, r) :: generations tr'
  | _ :: tr' => generations tr'
  end.

(** The accesses to the cache file among the events: [os.path.exists],
    reads and writes. *)
Fixpoint file_accesses (tr : list event) : list event :=
  match tr with
  | [] => []
  | EvExists b :: tr' => EvExists b :: file_accesses tr'
  | EvRead r :: tr' => EvRead r :: file_accesses tr'
  | EvWrite v f :: tr' => EvWrite v f :: file_accesses tr'
  | _ :: tr' => file_accesses tr'
  end.

(** The values handed to [json.dump], in order. *)
Fixpoint writes (tr : list event) : list json :=
  match tr with
  | [] => []
  | EvWrite v _ :: tr' => v :: writes tr'
  | _ :: tr' => writes tr'
  end.

(** The records logged at a given level, in order. *)
Fixpoint logged (lvl : level) (tr : list event) : list (list piece) :=
  match tr with
  | [] => []
  | EvLog l msg :: tr' =>
      match lvl, l with
      | INFO, INFO | WARNING, WARNING | ERROR, ERROR => msg :: logged lvl tr'
      | _, _ => logged lvl tr'
      end
  | _ :: tr' => logged lvl tr'
  end.

(** The error sentinel of line 81. *)
Definition error_message (e : exn) : string :=
  "Error: Could not get response from Ollama. Details: " +:+ exn_str e.

(** The world when [ollama.generate] comes back. *)
Definition after_generate (w : World) : World :=
  set_disk (others w (disk w)) w.

(** The JSON values on which [prompt in cache] is defined: strings, arrays
    and objects.  On null, booleans and numbers it raises TypeError. *)
Definition is_container (v : json) : bool :=
  match v with
  | JStr _ | JList _ | JDict _ => true
  | _ => false
  end.

(** ** Example worlds *)

(** What the Ollama client raises when the service is not reachable. *)
Definition connection_error : exn :=
  Exn OSError
    "Failed to connect to Ollama. Please check that Ollama is downloaded, running and accessible. https://ollama.com/download".

(** Ctrl-C while [ollama.generate] blocks. *)
Definition keyboard_interrupt : exn := Exn KeyboardInterrupt "".

(** No other process touches the cache file. *)
Definition quiet (fs : file_state) : file_state := fs.

(** The cache file holds [{"P": "R"}]; the endpoint answers. *)
Definition w_cached : World :=
  mkWorld ∅ (Present (ReadOk (JDict {["P" := JStr "R"]}))) Writable
    (fun _ _ => GenOk " live answer ") quiet.

Definition newline : string := String "010" EmptyString.

(** No cache file; the endpoint answers "R" between blanks and a newline. *)
Definition w_fresh : World :=
  mkWorld ∅ Absent Writable (fun _ _ => GenOk ("  R" +:+ newline)) quiet.

(** No cache file; the Ollama service is not running. *)
Definition w_down : World :=
  mkWorld ∅ Absent Writable (fun _ _ => GenRaises connection_error) quiet.

(** The cache file cannot be written (read-only location). *)
Definition w_readonly : World :=
  mkWorld ∅ Absent
    (OpenDenied "[Errno 13] Permission denied: 'llm_cache.json'")
    (fun _ _ => GenOk "R") quiet.

(** The cache file does not hold JSON. *)
Definition w_corrupt : World :=
  mkWorld ∅
    (Present (ReadRaises
       (Exn JSONDecodeError "Expecting value: line 1 column 1 (char 0)")))
    Writable (fun _ _ => GenOk "R") quiet.

(** While the endpoint works on ["P"], another process replaces the cache
    file [{"Z": "z"}] by [{"Q": "x"}]. *)
Definition w_raced : World :=
  mkWorld ∅ (Present (ReadOk (JDict {["Z" := JStr "z"]}))) Writable
    (fun _ _ => GenOk "R")
    (fun _ => Present (ReadOk (JDict {["Q" := JStr "x"]}))).

(** The cache file holds bytes that are not valid UTF-8. *)
Definition w_undecodable : World :=
  mkWorld ∅
    (Present (ReadRaises
       (Exn UnicodeDecodeError
          "'utf-8' codec can't decode byte 0xff in position 0: invalid start byte")))
    Writable (fun _ _ => GenOk "R") quiet.

(** The cache file holds the JSON text [[]]. *)
Definition w_listfile : World :=
  mkWorld ∅ (Present (ReadOk (JList []))) Writable (fun _ _ => GenOk "R") quiet.

(** No cache file; the user interrupts the endpoint call. *)
Definition w_interrupted : World :=
  mkWorld ∅ Absent Writable (fun _ _ => GenRaises keyboard_interrupt) quiet.

(** ** The logger set up when the module is imported (lines 7-20) *)

(** A [logging.FileHandler]: the path it was given and the format string
    of its formatter. *)
Record handler : Type := FileHandler {
  filename : string;
  format_string : string
}.

(** The logger object that [logging.getLogger("llm_logger")] returns.  It
    belongs to the process: a reload of the module finds it as the
    previous import left it. *)
Record logger : Type := Logger {
  lg_level : nat;
  lg_propagate : bool;
  lg_handlers : list handler
}.

(** [logging.INFO]; a logger that was never configured has level NOTSET
    (0), propagates and has no handler. *)
Definition logging_INFO : nat := 20.

Definition new_logger : logger := Logger 0 true [].

(** What an import of the module meets outside itself: the environment,
    the text of [datetime.now().strftime('%Y%m%d')], and the file system,
    which may refuse to create a directory or to open a file. *)
Record Importer : Type := mkImporter {
  imp_environ : gmap string string;
  today : string;
  makedirs_refused : string -> option exn;
  open_refused : string -> option exn
}.

Inductive fs_event : Type :=
| FsMakedirs (name : string) (failure : option exn)
| FsOpenAppend (path : string) (failure : option exn).

Record Imported : Type := mkImported {
  import_outcome : unit + exn;
  logger_after : logger;
  fs_events : list fs_event
}.

(** [os.makedirs(name, exist_ok=True)]: the empty name is refused by
    [mkdir] with FileNotFoundError, an OSError. *)
Definition os_makedirs (env : Importer) (name : string) : option exn :=
  match name with
  | EmptyString => Some (Exn OSError "[Errno 2] No such file or directory: ''")
  | _ => makedirs_refused env name
  end.

Definition starts_with_sep (s : string) : bool :=
  match s with
  | String "/" _ => true
  | _ => false
  end.

Fixpoint ends_with_sep (s : string) : bool :=
  match s with
  | EmptyString => false
  | String c EmptyString => Ascii.eqb c "/"
  | String _ s' => ends_with_sep s'
  end.

(** [os.path.join(a, b)] of [posixpath]. *)
Definition os_path_join (a b : string) : string :=
  if starts_with_sep b then b
  else
    match a with
    | EmptyString => b
    | _ => if ends_with_sep a then a +:+ b else a +:+ "/" +:+ b
    end.

(** Lines 8-20, run on the logger the process holds. *)
Definition import_module (env : Importer) (lg : logger) : Imported :=
  let log_directory := match imp_environ env !! "LOG_DIR" with
                       | Some v => v
                       | None => "logs"
                       end in
  match os_makedirs env log_directory with
  | Some e => mkImported (inr e) lg [FsMakedirs log_directory (Some e)]
  | None =>
      let log_file :=
        os_path_join log_directory ("llm_calls_" +:+ today env +:+ ".log") in
      match lg_handlers lg with
      | [] =>
          match open_refused env log_file with
          | Some e =>
              mkImported (inr e) (Logger logging_INFO false [])
                [FsMakedirs log_directory None; FsOpenAppend log_file (Some e)]
          | None =>
              let file_handler :=
                FileHandler log_file
                  "%(asctime)s - %(levelname)s - %(message)s" in
              mkImported (inl tt) (Logger logging_INFO false [file_handler])
                [FsMakedirs log_directory None; FsOpenAppend log_file None]
          end
      | hs =>
          mkImported (inl tt) (Logger logging_INFO false hs)
            [FsMakedirs log_directory None]
      end
  end.

(** The logger after a series of imports (the first import and the
    reloads that follow), each in its own surroundings; a failed import
    leaves the logger as far as it got. *)
Fixpoint reimport (envs : list Importer) (lg : logger) : logger :=
  match envs with
  | [] => lg
  | env :: envs' => reimport envs' (logger_after (import_module env lg))
  end.

(** The files an import opened. *)
Fixpoint opened (evs : list fs_event) : list string :=
  match evs with
  | [] => []
  | FsOpenAppend path _ :: evs' => path :: opened evs'
  | _ :: evs' => opened evs'
  end.

(** An import on the first of January 2025 with LOG_DIR unset, and one a
    day later with LOG_DIR set, on a file system that refuses nothing. *)
Definition import_first : Importer :=
  mkImporter ∅ "20250101" (fun _ => None) (fun _ => None).

Definition import_next_day : Importer :=
  mkImporter {["LOG_DIR" := "/var/log/llm/"]} "20250102"
    (fun _ => None) (fun _ => None).

(** ** The self-test run as a script (lines 115-141) *)












(** ** Proof tools *)

Ltac py_run :=
  cbv beta iota zeta delta
    [call_llm live_call lookup_cache load_cache generate_response
     ollama_failed reload_cache update_cache mbind mret fmap Py_bind Py_ret
     Py_fmap py_bind py_ret after try_except emit raise logger_info
     logger_warning logger_error os_getenv os_path_exists open_json_load open_json_dump
     ollama_generate py_contains py_getitem py_setitem outcome final emitted
     disk environ device ollama others set_disk set_environ after_generate
     is_IOError exn_cls configured_model error_message] in *;
  cbn [app In generations file_accesses writes logged] in *.

Ltac py_world w :=
  let env := fresh "env" in
  let dk := fresh "dk" in
  let dev := fresh "dev" in
  let oll := fresh "oll" in
  let oth := fresh "oth" in
  destruct w as [env dk dev oll oth]; py_run.

(** Case analysis on a membership in an explicit list of events. *)
Ltac pick_event H :=
  cbn [In app] in H;
  repeat match type of H with
         | _ \/ _ => destruct H as [H|H]
         end;
  try discriminate H; try contradiction.

Lemma generations_app (tr1 tr2 : list event) :
  generations (tr1 ++ tr2) = generations tr1 ++ generations tr2.
Proof.
  induction tr1 as [|ev tr1 IH]; [reflexivity|].
  destruct ev; simpl; rewrite IH; reflexivity.
Qed.

Lemma writes_app (tr1 tr2 : list event) :
  writes (tr1 ++ tr2) = writes tr1 ++ writes tr2.
Proof.
  induction tr1 as [|ev tr1 IH]; [reflexivity|].
  destruct ev; simpl; rewrite IH; reflexivity.
Qed.

Lemma logged_app (lvl : level) (tr1 tr2 : list event) :
  logged lvl (tr1 ++ tr2) = logged lvl tr1 ++ logged lvl tr2.
Proof.
  induction tr1 as [|ev tr1 IH]; [reflexivity|].
  destruct ev as [l msg| | | |]; simpl; try exact IH.
  destruct lvl, l; simpl; rewrite IH; reflexivity.
Qed.

Lemma In_generations (tr : list event) (m q : string) (o : gen_outcome) :
  In (EvGenerate m q o) tr <-> In (m, q, o) (generations tr).
Proof.
  induction tr as [|ev tr IH]; [reflexivity|].
  destruct ev; simpl; rewrite <- IH; intuition congruence.
Qed.

Lemma In_writes (tr : list event) (v : json) (f : option exn) :
  In (EvWrite v f) tr -> In v (writes tr).
Proof.
  induction tr as [|ev tr IH]; [auto|].
  destruct ev; simpl; intuition congruence.
Qed.


(** ** [str.strip] *)

Lemma whitespace_bytes :
  whitespace =
    map (map ascii_of_N)
      [[9]; [10]; [11]; [12]; [13]; [28]; [29]; [30]; [31]; [32];
       [194; 133]; [194; 160]; [225; 154; 128];
       [226; 128; 128]; [226; 128; 129]; [226; 128; 130]; [226; 128; 131];
       [226; 128; 132]; [226; 128; 133]; [226; 128; 134]; [226; 128; 135];
       [226; 128; 136]; [226; 128; 137]; [226; 128; 138];
       [226; 128; 168]; [226; 128; 169]; [226; 128; 175];
       [226; 129; 159]; [227; 128; 128]]%N.
Proof. reflexivity. Qed.









Lemma whitespace_nonempty (w : list ascii) : In w whitespace -> w <> [].
Proof.
  intros Hin ->. vm_compute in Hin.
  repeat (destruct Hin as [Hin|Hin]; [discriminate Hin|]). exact Hin.
Qed.



Lemma drop_space_whitespace (w rest : list ascii) :
  In w whitespace -> drop_space whitespace (w ++ rest) = Some rest.
Proof.
  intros Hin. vm_compute in Hin.
  repeat (destruct Hin as [<-|Hin]; [vm_compute; reflexivity|]).
  destruct Hin.
Qed.

Lemma drop_spaces_all (fuel : nat) (l : list ascii) :
  spaces whitespace l -> List.length l <= fuel ->
  drop_spaces whitespace fuel l = [].
Proof.
  intros Hsp. revert fuel.
  induction Hsp as [|w l Hin Hl IH]; intros fuel Hlen.
  - destruct fuel; reflexivity.
  - pose proof (whitespace_nonempty w Hin) as Hne.
    rewrite length_app in Hlen.
    destruct fuel as [|fuel]; [destruct w; [congruence|cbn in Hlen; lia]|].
    cbn [drop_spaces]. rewrite (drop_space_whitespace w l Hin).
    apply IH. destruct w; [congruence|]. cbn in Hlen. lia.
Qed.

Lemma strip_all_space (s : string) :
  all_space s -> strip s = EmptyString.
Proof.
  intros H. unfold strip, lstrip. cbv zeta.
  rewrite (drop_spaces_all _ _ H (le_n _)). reflexivity.
Qed.

Example strip_example :
  strip (String "009" (String "010" "  two words " +:+ String "013" "")) = "two words".
Proof. reflexivity. Qed.

(** EM SPACE (U+2003) before and IDEOGRAPHIC SPACE (U+3000) after are
    removed; the last byte of a final "à" (C3 A0) is not taken for a
    NO-BREAK SPACE (C2 A0). *)
Example strip_unicode :
  strip (bytes [226; 128; 131]%N +:+ "R" +:+ bytes [227; 128; 128]%N) = "R"
  /\ strip ("voil" +:+ bytes [195; 160]%N) = "voil" +:+ bytes [195; 160]%N
  /\ strip ("a" +:+ bytes [194; 160]%N) = "a".
Proof. repeat split. Qed.

(** ** The stages of a call *)

(** *** The lookup *)

Lemma lookup_cache_frame (p : string) (w : World) :
  final (lookup_cache p w) = w
  /\ generations (emitted (lookup_cache p w)) = []
  /\ writes (emitted (lookup_cache p w)) = [].
Proof.
  py_world w.
  destruct dk as [|[v|e]]; py_run.
  - auto.
  - destruct v; py_run; auto.
    + destruct (str_contains p s); py_run; auto.
    + destruct (existsb (is_str p) l); py_run; auto.
    + destruct (d !! p); py_run; auto.
  - destruct (is_JSONDecodeError_or_IOError e); py_run; auto.
Qed.

Lemma lookup_cache_hit (p : string) (w : World) (d : gmap string json) (v : json) :
  disk w = Present (ReadOk (JDict d)) -> d !! p = Some v ->
  lookup_cache p w =
    mkRun (inl (Some v)) w
      [EvExists true; EvRead (inl (JDict d));
       EvLog INFO [Lit "RESPONSE (cached): "; Fmt v]].
Proof.
  intros Hd Hv. py_world w. subst dk. py_run. rewrite Hv. reflexivity.
Qed.

(** *** The cache update *)

(** What the reload of lines 87-93 yields, read off the file. *)
Lemma reload_cache_outcome (w : World) :
  outcome (reload_cache w) =
    match disk w with
    | Absent => inl (JDict ∅)
    | Present (ReadOk v) => inl v
    | Present (ReadRaises e) =>
        if is_JSONDecodeError_or_IOError e then inl (JDict ∅) else inr e
    end.
Proof.
  py_world w. destruct dk as [|[v|e]]; py_run; try reflexivity.
  destruct (is_JSONDecodeError_or_IOError e); reflexivity.
Qed.

Lemma update_cache_no_generation (p t : string) (w : World) :
  generations (emitted (update_cache p t w)) = [].
Proof.
  py_world w.
  destruct dk as [|[v|e]]; py_run.
  - destruct dev; reflexivity.
  - destruct v; py_run; auto. destruct dev; reflexivity.
  - destruct (is_JSONDecodeError_or_IOError e); py_run; auto.
    destruct dev; reflexivity.
Qed.

Lemma update_cache_saves (p t : string) (w : World) (d : gmap string json) :
  outcome (reload_cache w) = inl (JDict d) ->
  device w = Writable ->
  outcome (update_cache p t w) = inl tt
  /\ final (update_cache p t w) =
       set_disk (Present (ReadOk (JDict (<[p := JStr t]> d)))) w
  /\ writes (emitted (update_cache p t w)) = [JDict (<[p := JStr t]> d)].
Proof.
  intros Hr Hdev. py_world w. subst dev.
  destruct dk as [|[v|e]]; py_run.
  - injection Hr as <-. auto.
  - injection Hr as ->. auto.
  - destruct (is_JSONDecodeError_or_IOError e); py_run; [|discriminate].
    injection Hr as <-. auto.
Qed.


Lemma update_cache_write_ok (p t : string) (w : World) (v : json) :
  In (EvWrite v None) (emitted (update_cache p t w)) ->
  exists d : gmap string json,
    outcome (reload_cache w) = inl (JDict d)
    /\ device w = Writable
    /\ v = JDict (<[p := JStr t]> d).
Proof.
  py_world w.
  destruct dk as [|[c|e]]; py_run.
  - destruct dev; py_run; intros H; pick_event H.
    injection H as <-. exists ∅. auto.
  - destruct c; py_run; try (intros H; pick_event H; fail).
    destruct dev; py_run; intros H; pick_event H.
    injection H as <-. exists d. auto.
  - destruct (is_JSONDecodeError_or_IOError e); py_run;
      [|intros H; pick_event H].
    destruct dev; py_run; intros H; pick_event H.
    injection H as <-. exists ∅. auto.
Qed.


(** *** The live call *)

Lemma live_call_raises (p : string) (u : bool) (w : World) (e : exn) :
  ollama w (configured_model w) p = GenRaises e ->
  is_Exception e = true ->
  live_call p u w =
    mkRun (inl (JStr (error_message e))) (after_generate w)
      [EvLog INFO [Lit "Calling Ollama model: "; Fmt (JStr (configured_model w))];
       EvGenerate (configured_model w) p (GenRaises e);
       EvLog ERROR [Lit "Error calling Ollama: "; Fmt (JStr (exn_str e))]].
Proof.
  intros Ho He. py_world w. rewrite Ho. py_run. rewrite He. reflexivity.
Qed.

(** An exception that [except Exception] does not catch leaves the call. *)
Lemma live_call_interrupted (p : string) (u : bool) (w : World) (e : exn) :
  ollama w (configured_model w) p = GenRaises e ->
  is_Exception e = false ->
  live_call p u w =
    mkRun (inr e) (after_generate w)
      [EvLog INFO [Lit "Calling Ollama model: "; Fmt (JStr (configured_model w))];
       EvGenerate (configured_model w) p (GenRaises e)].
Proof.
  intros Ho He. py_world w. rewrite Ho. py_run. rewrite He. reflexivity.
Qed.

Lemma live_call_ok (p : string) (u : bool) (w : World) (text : string) :
  ollama w (configured_model w) p = GenOk text ->
  live_call p u w =
    let r := (if u then update_cache p (strip text) else mret tt)
               (after_generate w) in
    mkRun (match outcome r with
           | inl _ => inl (JStr (strip text))
           | inr e => inr e
           end)
          (final r)
          ([EvLog INFO [Lit "Calling Ollama model: ";
                        Fmt (JStr (configured_model w))];
            EvGenerate (configured_model w) p (GenOk text);
            EvLog INFO [Lit "RESPONSE (Ollama): "; Fmt (JStr (strip text))]]
           ++ emitted r).
Proof.
  intros Ho. py_world w. rewrite Ho. py_run.
  destruct u; py_run; [|reflexivity].
  destruct dev, (oth dk) as [|[v|e]]; py_run; try reflexivity;
    try (destruct v; reflexivity);
    destruct (is_JSONDecodeError_or_IOError e); reflexivity.
Qed.

(** *** The whole call *)

Lemma lookup_stage_frame (p : string) (u : bool) (w : World) :
  final (lookup_stage p u w) = w
  /\ generations (emitted (lookup_stage p u w)) = []
  /\ writes (emitted (lookup_stage p u w)) = [].
Proof.
  destruct u; [apply lookup_cache_frame|]. repeat split.
Qed.

Lemma lookup_stage_no_error (p : string) (u : bool) (w : World) :
  logged ERROR (emitted (lookup_stage p u w)) = [].
Proof.
  destruct u; [|reflexivity]. unfold lookup_stage. py_world w.
  destruct dk as [|[v|e]]; py_run; auto.
  - destruct v; py_run; auto.
    + destruct (str_contains p s); py_run; auto.
    + destruct (existsb (is_str p) l); py_run; auto.
    + destruct (d !! p); py_run; auto.
  - destruct (is_JSONDecodeError_or_IOError e); py_run; auto.
Qed.

Lemma lookup_stage_no_write (p : string) (u : bool) (w : World)
    (v : json) (f : option exn) :
  ~ In (EvWrite v f) (emitted (lookup_stage p u w)).
Proof.
  intros H. apply In_writes in H.
  destruct (lookup_stage_frame p u w) as (_ & _ & Hw).
  rewrite Hw in H. exact H.
Qed.

Lemma call_llm_run (p : string) (u : bool) (w : World) :
  call_llm p u w =
    after [EvLog INFO [Lit "PROMPT: "; Fmt (JStr p)]]
      match lookup_stage p u w with
      | mkRun (inl (Some v)) w' tr => mkRun (inl v) w' tr
      | mkRun (inl None) w' tr => after tr (live_call p u w')
      | mkRun (inr e) w' tr => mkRun (inr e) w' tr
      end.
Proof.
  unfold call_llm, lookup_stage.
  cbv beta iota zeta delta
    [mbind Py_bind py_bind logger_info emit after mret Py_ret py_ret].
  destruct ((if u then lookup_cache p else fun w0 => mkRun (inl None) w0 []) w)
    as [[[v|]|e] w' tr]; cbn [app]; rewrite ?app_nil_r; reflexivity.
Qed.

Lemma call_llm_live (p : string) (u : bool) (w : World) :
  outcome (lookup_stage p u w) = inl None ->
  call_llm p u w =
    after (EvLog INFO [Lit "PROMPT: "; Fmt (JStr p)]
           :: emitted (lookup_stage p u w))
      (live_call p u w).
Proof.
  intros Hmiss. rewrite call_llm_run.
  destruct (lookup_stage_frame p u w) as (Hw & _).
  destruct (lookup_stage p u w) as [o w' tr]. simpl in *. subst o w'.
  destruct (live_call p u w). reflexivity.
Qed.

Lemma call_llm_generations (p : string) (u : bool) (w : World) :
  generations (emitted (call_llm p u w)) =
    match outcome (lookup_stage p u w) with
    | inl None => [(configured_model w, p, ollama w (configured_model w) p)]
    | _ => []
    end.
Proof.
  rewrite call_llm_run.
  destruct (lookup_stage_frame p u w) as (Hw & Hg & _).
  destruct (lookup_stage p u w) as [[[v|]|e] w' tr]; simpl in *; auto.
  subst w'.
  destruct (ollama w (configured_model w) p) as [text|e] eqn:Ho.
  - rewrite (live_call_ok _ _ _ _ Ho). cbv zeta.
    assert (Hu : generations
              (emitted ((if u then update_cache p (strip text) else mret tt)
                          (after_generate w))) = []).
    { destruct u; [apply update_cache_no_generation|reflexivity]. }
    destruct ((if u then update_cache p (strip text) else mret tt)
                (after_generate w)) as [o w' tr'].
    simpl in *. rewrite !generations_app, Hg. simpl. rewrite Hu. reflexivity.
  - destruct (is_Exception e) eqn:He.
    + rewrite (live_call_raises _ _ _ _ Ho He). simpl.
      rewrite generations_app, Hg. reflexivity.
    + rewrite (live_call_interrupted _ _ _ _ Ho He). simpl.
      rewrite generations_app, Hg. reflexivity.
Qed.

Lemma generate_inv (p : string) (u : bool) (w : World)
    (m q : string) (o : gen_outcome) :
  In (EvGenerate m q o) (emitted (call_llm p u w)) ->
  m = configured_model w /\ q = p
  /\ ollama w (configured_model w) p = o
  /\ outcome (lookup_stage p u w) = inl None.
Proof.
  rewrite In_generations, call_llm_generations.
  destruct (outcome (lookup_stage p u w)) as [[v|]|e]; simpl;
    intuition congruence.
Qed.

Lemma call_llm_uncached_run (p : string) (w : World) :
  call_llm p false w =
    after [EvLog INFO [Lit "PROMPT: "; Fmt (JStr p)];
           EvLog INFO [Lit "Calling Ollama model: ";
                       Fmt (JStr (configured_model w))]]
      match ollama w (configured_model w) p with
      | GenOk text =>
          mkRun (inl (JStr (strip text))) (after_generate w)
            [EvGenerate (configured_model w) p (GenOk text);
             EvLog INFO [Lit "RESPONSE (Ollama): "; Fmt (JStr (strip text))]]
      | GenRaises e =>
          if is_Exception e then
            mkRun (inl (JStr (error_message e))) (after_generate w)
              [EvGenerate (configured_model w) p (GenRaises e);
               EvLog ERROR [Lit "Error calling Ollama: ";
                            Fmt (JStr (exn_str e))]]
          else
            mkRun (inr e) (after_generate w)
              [EvGenerate (configured_model w) p (GenRaises e)]
      end.
Proof.
  rewrite (call_llm_live p false w eq_refl).
  destruct (ollama w (configured_model w) p) as [text|e] eqn:Ho.
  - rewrite (live_call_ok p false w text Ho). reflexivity.
  - destruct (is_Exception e) eqn:He.
    + rewrite (live_call_raises p false w e Ho He). reflexivity.
    + rewrite (live_call_interrupted p false w e Ho He). reflexivity.
Qed.

(** ** The claims *)

(** C1. A call with caching enabled, made while the cache file holds a
    mapping with an entry for the prompt, returns that entry; it logs it as
    a cached response, does not invoke the endpoint and leaves the world as
    it was. *)
Theorem call_llm_cache_hit (p : string) (w : World)
    (d : gmap string json) (v : json) :
  disk w = Present (ReadOk (JDict d)) ->
  d !! p = Some v ->
  outcome (call_llm p true w) = inl v
  /\ generations (emitted (call_llm p true w)) = []
  /\ In (EvLog INFO [Lit "RESPONSE (cached): "; Fmt v])
        (emitted (call_llm p true w))
  /\ final (call_llm p true w) = w.
Proof.
  intros Hd Hv. rewrite call_llm_run. unfold lookup_stage.
  rewrite (lookup_cache_hit p w d v Hd Hv). simpl. auto 10.
Qed.

Lemma call_llm_cache_hit_witness :
  outcome (call_llm "P" true w_cached) = inl (JStr "R")
  /\ generations (emitted (call_llm "P" true w_cached)) = []
  /\ In (EvLog INFO [Lit "RESPONSE (cached): "; Fmt (JStr "R")])
        (emitted (call_llm "P" true w_cached))
  /\ final (call_llm "P" true w_cached) = w_cached.
Proof.
  apply (call_llm_cache_hit "P" w_cached {["P" := JStr "R"]} (JStr "R"));
    reflexivity.
Defined.

(** An exception of the endpoint call that [except Exception] does not
    catch leaves [call_llm]; no error record is logged. *)
Lemma call_llm_interrupted (p : string) (u : bool) (w : World)
    (m : string) (e : exn) :
  In (EvGenerate m p (GenRaises e)) (emitted (call_llm p u w)) ->
  is_Exception e = false ->
  outcome (call_llm p u w) = inr e
  /\ logged ERROR (emitted (call_llm p u w)) = [].
Proof.
  intros Hg He. apply generate_inv in Hg as (_ & _ & Ho & Hmiss).
  rewrite (call_llm_live p u w Hmiss), (live_call_interrupted p u w e Ho He).
  cbn [after outcome emitted]. split; [reflexivity|].
  change (?a :: ?l ++ ?r) with ((a :: l) ++ r).
  rewrite logged_app. cbn [logged]. rewrite lookup_stage_no_error. reflexivity.
Qed.

(** C2, as stated, fails: the endpoint call is interrupted from the
    keyboard; KeyboardInterrupt is not an [Exception], line 77 does not
    catch it, the call raises it and logs no error. *)
Lemma interrupted_call_propagates :
  In (EvGenerate "qwen2.5-32k" "P" (GenRaises keyboard_interrupt))
     (emitted (call_llm "P" false w_interrupted))
  /\ outcome (call_llm "P" false w_interrupted) = inr keyboard_interrupt
  /\ logged ERROR (emitted (call_llm "P" false w_interrupted)) = [].
Proof.
  split; [vm_compute; auto|]. split; reflexivity.
Qed.

(** C2, amended.  When the endpoint call made by [call_llm] raises an
    exception that derives from [Exception], [call_llm] raises nothing: it
    returns the string made of the fixed prefix
    "Error: Could not get response from Ollama. Details: " followed by the
    text of the exception, and logs exactly one record at error severity,
    which carries that text. *)
Theorem call_llm_endpoint_failure (p : string) (u : bool) (w : World)
    (m : string) (e : exn) :
  In (EvGenerate m p (GenRaises e)) (emitted (call_llm p u w)) ->
  is_Exception e = true ->
  outcome (call_llm p u w) =
    inl (JStr ("Error: Could not get response from Ollama. Details: "
               +:+ exn_str e))
  /\ logged ERROR (emitted (call_llm p u w)) =
       [[Lit "Error calling Ollama: "; Fmt (JStr (exn_str e))]].
Proof.
  intros Hg He. apply generate_inv in Hg as (_ & _ & Ho & Hmiss).
  rewrite (call_llm_live p u w Hmiss), (live_call_raises p u w e Ho He).
  cbn [after outcome emitted]. split; [reflexivity|].
  change (?a :: ?l ++ ?r) with ((a :: l) ++ r).
  rewrite logged_app. cbn [logged]. rewrite lookup_stage_no_error. reflexivity.
Qed.

Lemma call_llm_endpoint_failure_witness :
  outcome (call_llm "P" true w_down) =
    inl (JStr ("Error: Could not get response from Ollama. Details: "
               +:+ exn_str connection_error))
  /\ logged ERROR (emitted (call_llm "P" true w_down)) =
       [[Lit "Error calling Ollama: "; Fmt (JStr (exn_str connection_error))]].
Proof.
  apply (call_llm_endpoint_failure "P" true w_down "qwen2.5-32k"
           connection_error).
  - vm_compute. auto.
  - reflexivity.
Defined.






(** C5. With caching disabled, [call_llm] invokes the endpoint exactly once,
    with the configured model and the prompt, whatever the cache file
    holds; the cache file is not looked at. *)
Theorem call_llm_cache_bypass (p : string) (w : World) :
  generations (emitted (call_llm p false w)) =
    [(configured_model w, p, ollama w (configured_model w) p)]
  /\ file_accesses (emitted (call_llm p false w)) = [].
Proof.
  rewrite call_llm_uncached_run.
  destruct (ollama w (configured_model w) p) as [text|e];
    [|destruct (is_Exception e)]; split; reflexivity.
Qed.

(** With caching disabled an entry for the very prompt is not served. *)
Example uncached_call_ignores_cached_entry :
  outcome (call_llm "P" true w_cached) = inl (JStr "R")
  /\ outcome (call_llm "P" false w_cached) = inl (JStr "live answer")
  /\ generations (emitted (call_llm "P" false w_cached)) =
       [("qwen2.5-32k", "P", GenOk " live answer ")].
Proof. repeat split. Qed.

(** C6, as stated, fails: the endpoint call succeeds, the write is refused,
    and after the call the cache file holds no mapping with the entry. *)
Lemma refused_write_leaves_cache_unsaved :
  generations (emitted (call_llm "P" true w_readonly)) =
    [("qwen2.5-32k", "P", GenOk "R")]
  /\ outcome (call_llm "P" true w_readonly) = inl (JStr "R")
  /\ disk (final (call_llm "P" true w_readonly)) = Absent
  /\ forall d : gmap string json,
       disk (final (call_llm "P" true w_readonly))
       <> Present (ReadOk (JDict (<["P" := JStr "R"]> d))).
Proof.
  repeat split. intros d H. discriminate H.
Qed.

(** C6, amended.  With caching enabled, after a successful endpoint call
    whose reload of the cache file yields a mapping (an absent or
    unloadable file counting as the empty one) and whose write succeeds,
    the cache file holds that reloaded mapping with the entry for the
    prompt inserted or overwritten: the prompt maps to the response text
    and every other key is as in the reloaded mapping. *)
Theorem call_llm_saves_reloaded_cache (p : string) (w : World)
    (m text : string) (d : gmap string json) :
  In (EvGenerate m p (GenOk text)) (emitted (call_llm p true w)) ->
  outcome (reload_cache (after_generate w)) = inl (JDict d) ->
  device w = Writable ->
  let saved := <[p := JStr (strip text)]> d in
  disk (final (call_llm p true w)) = Present (ReadOk (JDict saved))
  /\ writes (emitted (call_llm p true w)) = [JDict saved]
  /\ saved !! p = Some (JStr (strip text))
  /\ forall k : string, k <> p -> saved !! k = d !! k.
Proof.
  intros Hg Hr Hdev saved.
  apply generate_inv in Hg as (_ & _ & Ho & Hmiss).
  rewrite (call_llm_live p true w Hmiss), (live_call_ok p true w text Ho).
  cbv zeta.
  destruct (update_cache_saves p (strip text) (after_generate w) d Hr)
    as (Hout & Hfin & Hwr).
  { destruct w; exact Hdev. }
  destruct (lookup_stage_frame p true w) as (_ & _ & Hlw).
  destruct (update_cache p (strip text) (after_generate w)) as [o w' tr].
  cbn [after outcome emitted final] in *. subst w'.
  repeat split.
  - rewrite writes_app. cbn [writes app]. rewrite Hlw, Hwr. reflexivity.
  - apply lookup_insert_eq.
  - intros k Hk. apply lookup_insert_ne. congruence.
Qed.

Lemma call_llm_saves_reloaded_cache_witness :
  disk (final (call_llm "P" true w_raced)) =
    Present (ReadOk (JDict (<["P" := JStr "R"]> {["Q" := JStr "x"]})))
  /\ (<["P" := JStr "R"]> ({["Q" := JStr "x"]} : gmap string json)) !! "Q"
     = Some (JStr "x").
Proof.
  destruct (call_llm_saves_reloaded_cache "P" w_raced "qwen2.5-32k" "R"
              {["Q" := JStr "x"]}) as (Hd & _ & _ & Hk).
  - vm_compute. auto 20.
  - reflexivity.
  - reflexivity.
  - split; [exact Hd|]. rewrite Hk; [reflexivity|discriminate].
Defined.

(** The mapping saved is the one reloaded after the endpoint call, not the
    one loaded before the lookup: an entry that was there before and is
    gone at the reload is not written back. *)
Example call_llm_saves_reload_not_first_load :
  outcome (load_cache w_raced) = inl (JDict {["Z" := JStr "z"]})
  /\ disk (final (call_llm "P" true w_raced)) =
       Present (ReadOk (JDict (<["P" := JStr "R"]> {["Q" := JStr "x"]})))
  /\ disk (final (call_llm "P" true w_raced)) <>
       Present (ReadOk (JDict (<["P" := JStr "R"]> {["Z" := JStr "z"]}))).
Proof.
  repeat split. vm_compute. discriminate.
Qed.




(** C8, as stated, fails: with caching enabled the endpoint call is
    interrupted from the keyboard; the call raises KeyboardInterrupt and
    returns no error sentinel. *)
Lemma interrupted_cached_call_returns_no_sentinel :
  In (EvGenerate "qwen2.5-32k" "P" (GenRaises keyboard_interrupt))
     (emitted (call_llm "P" true w_interrupted))
  /\ outcome (call_llm "P" true w_interrupted) = inr keyboard_interrupt
  /\ forall s : string,
       outcome (call_llm "P" true w_interrupted) <> inl (JStr s).
Proof.
  split; [vm_compute; auto|]. split; [reflexivity|].
  intros s H. vm_compute in H. discriminate H.
Qed.

(** C8, amended.  When the endpoint call made by [call_llm] with caching
    enabled raises an exception that derives from [Exception], the error
    log and the return of the error sentinel follow the call at once:
    nothing is handed to [json.dump], and the cache file is as the other
    processes left it. *)
Theorem call_llm_failure_not_cached (p : string) (w : World)
    (m : string) (e : exn) :
  In (EvGenerate m p (GenRaises e)) (emitted (call_llm p true w)) ->
  is_Exception e = true ->
  outcome (call_llm p true w) =
    inl (JStr ("Error: Could not get response from Ollama. Details: "
               +:+ exn_str e))
  /\ (exists tr : list event,
        emitted (call_llm p true w) =
          tr ++ [EvGenerate m p (GenRaises e);
                 EvLog ERROR [Lit "Error calling Ollama: ";
                              Fmt (JStr (exn_str e))]])
  /\ writes (emitted (call_llm p true w)) = []
  /\ disk (final (call_llm p true w)) = others w (disk w)
  /\ (others w (disk w) = disk w ->
      disk (final (call_llm p true w)) = disk w).
Proof.
  intros Hg He. apply generate_inv in Hg as (-> & _ & Ho & Hmiss).
  rewrite (call_llm_live p true w Hmiss), (live_call_raises p true w e Ho He).
  destruct (lookup_stage_frame p true w) as (_ & _ & Hw).
  cbn [after outcome emitted final] in *.
  repeat split; auto.
  - exists (EvLog INFO [Lit "PROMPT: "; Fmt (JStr p)]
            :: emitted (lookup_stage p true w)
            ++ [EvLog INFO [Lit "Calling Ollama model: ";
                            Fmt (JStr (configured_model w))]]).
    cbn [app]. rewrite <- app_assoc. reflexivity.
  - rewrite writes_app. cbn [writes]. rewrite Hw. reflexivity.
Qed.

Lemma call_llm_failure_not_cached_witness :
  outcome (call_llm "P" true w_down) =
    inl (JStr ("Error: Could not get response from Ollama. Details: "
               +:+ exn_str connection_error))
  /\ writes (emitted (call_llm "P" true w_down)) = []
  /\ disk (final (call_llm "P" true w_down)) = Absent.
Proof.
  destruct (call_llm_failure_not_cached "P" w_down "qwen2.5-32k"
              connection_error) as (Ho & _ & Hw & Hd & _).
  - vm_compute. auto.
  - reflexivity.
  - split; [exact Ho|split; [exact Hw|exact Hd]].
Defined.

(** C9. The cache is keyed on the prompt alone.  Once a call under one
    setting of the environment has obtained a response for a prompt from
    the endpoint and saved the cache, a call with the same prompt under any
    other setting of the environment (of OLLAMA_MODEL in particular)
    returns that same response and does not invoke the endpoint. *)
Theorem cached_response_survives_model_change (p : string) (w : World)
    (m text : string) (v : json) (env' : gmap string string) :
  In (EvGenerate m p (GenOk text)) (emitted (call_llm p true w)) ->
  In (EvWrite v None) (emitted (call_llm p true w)) ->
  let later := set_environ env' (final (call_llm p true w)) in
  outcome (call_llm p true later) = inl (JStr (strip text))
  /\ outcome (call_llm p true later) = outcome (call_llm p true w)
  /\ generations (emitted (call_llm p true later)) = [].
Proof.
  intros Hg. apply generate_inv in Hg as (_ & _ & Ho & Hmiss).
  rewrite (call_llm_live p true w Hmiss), (live_call_ok p true w text Ho).
  cbv zeta.
  pose proof (update_cache_write_ok p (strip text) (after_generate w) v)
    as Hok.
  pose proof (update_cache_saves p (strip text) (after_generate w)) as Hsave.
  pose proof (lookup_stage_no_write p true w v None) as Hlook.
  destruct (update_cache p (strip text) (after_generate w)) as [o w' tr].
  cbn [after outcome emitted final] in *.
  intros [Hw|Hw]; [discriminate Hw|].
  apply in_app_or in Hw as [Hw|Hw]; [contradiction|].
  pick_event Hw. destruct (Hok Hw) as (d & Hr & Hdev & _).
  destruct (Hsave d Hr Hdev) as (-> & -> & _).
  set (later := set_environ env' _).
  assert (Hhit : lookup_cache p later =
            mkRun (inl (Some (JStr (strip text)))) later
              [EvExists true;
               EvRead (inl (JDict (<[p := JStr (strip text)]> d)));
               EvLog INFO [Lit "RESPONSE (cached): ";
                           Fmt (JStr (strip text))]]).
  { apply lookup_cache_hit; [reflexivity|apply lookup_insert_eq]. }
  rewrite (call_llm_run p true later). unfold lookup_stage. rewrite Hhit.
  repeat split.
Qed.

Lemma cached_response_survives_model_change_witness :
  outcome (call_llm "P" true
             (set_environ {["OLLAMA_MODEL" := "llama3"]}
                (final (call_llm "P" true w_fresh)))) = inl (JStr "R")
  /\ generations
       (emitted (call_llm "P" true
                   (set_environ {["OLLAMA_MODEL" := "llama3"]}
                      (final (call_llm "P" true w_fresh))))) = [].
Proof.
  destruct (cached_response_survives_model_change "P" w_fresh "qwen2.5-32k"
              ("  R" +:+ newline)
              (JDict {["P" := JStr "R"]}) {["OLLAMA_MODEL" := "llama3"]})
    as (Ho & _ & Hg).
  - vm_compute. auto 20.
  - vm_compute. auto 20.
  - split; [exact Ho|exact Hg].
Defined.


(** C10. With caching disabled, [call_llm] makes no access to the cache
    file, whether the endpoint call succeeds or raises: when the call is
    over the file is as the other processes left it, hence exactly as it
    was before the call when nobody else touched it. *)
Theorem call_llm_uncached_leaves_file (p : string) (w : World) :
  file_accesses (emitted (call_llm p false w)) = []
  /\ writes (emitted (call_llm p false w)) = []
  /\ disk (final (call_llm p false w)) = others w (disk w)
  /\ (others w (disk w) = disk w ->
      disk (final (call_llm p false w)) = disk w).
Proof.
  rewrite call_llm_uncached_run.
  destruct (ollama w (configured_model w) p) as [text|e];
    [|destruct (is_Exception e)]; repeat split; auto.
Qed.

Lemma call_llm_uncached_leaves_file_witness :
  others w_cached (disk w_cached) = disk w_cached
  /\ disk (final (call_llm "P" false w_cached)) = disk w_cached.
Proof.
  split; [reflexivity|].
  apply (call_llm_uncached_leaves_file "P" w_cached). reflexivity.
Defined.

(** ** Scenarios *)

(** The end-to-end scenario: no cache file, the endpoint answers "R" (with
    blanks around it); the call returns "R" and the cache file then holds
    [{"P": "R"}]; a second call returns "R" without a second invocation. *)
Example end_to_end_scenario :
  let first := call_llm "P" true w_fresh in
  let second := call_llm "P" true (final first) in
  outcome first = inl (JStr "R")
  /\ disk (final first) = Present (ReadOk (JDict {["P" := JStr "R"]}))
  /\ outcome second = inl (JStr "R")
  /\ generations (emitted second) = [].
Proof. repeat split. Qed.

(** An exception of the load that is neither JSONDecodeError nor IOError
    is not handled by line 48 and leaves [call_llm]. *)
Example undecodable_cache_file_propagates :
  outcome (call_llm "P" true w_undecodable) =
    inr (Exn UnicodeDecodeError
           "'utf-8' codec can't decode byte 0xff in position 0: invalid start byte")
  /\ generations (emitted (call_llm "P" true w_undecodable)) = [].
Proof. repeat split. Qed.

(** A cache file that holds a JSON list: the lookup misses, the endpoint is
    invoked, and the assignment of line 96 raises TypeError. *)
Example list_cache_file_raises_at_update :
  outcome (call_llm "P" true w_listfile) =
    inr (Exn TypeError "list indices must be integers or slices, not str")
  /\ generations (emitted (call_llm "P" true w_listfile)) =
       [("qwen2.5-32k", "P", GenOk "R")]
  /\ writes (emitted (call_llm "P" true w_listfile)) = [].
Proof. repeat split. Qed.

(** ** Further properties of [call_llm] *)


Lemma disk_after_generate (w : World) :
  disk (after_generate w) = others w (disk w).
Proof. destruct w; reflexivity. Qed.

Lemma device_after_generate (w : World) :
  device (after_generate w) = device w.
Proof. destruct w; reflexivity. Qed.


(** What the lookup of lines 42-56 yields, read off the file. *)
Lemma lookup_cache_outcome (p : string) (w : World) :
  outcome (lookup_cache p w) =
    match disk w with
    | Absent => inl None
    | Present (ReadOk (JDict d)) => inl (d !! p)
    | Present (ReadOk (JList l)) =>
        if existsb (is_str p) l
        then inr (Exn TypeError
                    "list indices must be integers or slices, not str")
        else inl None
    | Present (ReadOk (JStr s)) =>
        if str_contains p s
        then inr (Exn TypeError "string indices must be integers, not 'str'")
        else inl None
    | Present (ReadOk v) =>
        inr (Exn TypeError
               ("argument of type '" +:+ type_name v +:+ "' is not iterable"))
    | Present (ReadRaises e) =>
        if is_JSONDecodeError_or_IOError e then inl None else inr e
    end.
Proof.
  py_world w. destruct dk as [|[v|e]]; py_run.
  - rewrite lookup_empty. reflexivity.
  - destruct v; py_run; try reflexivity.
    + destruct (str_contains p s); reflexivity.
    + destruct (existsb (is_str p) l); reflexivity.
    + destruct (d !! p); reflexivity.
  - destruct (is_JSONDecodeError_or_IOError e); py_run; [|reflexivity].
    rewrite lookup_empty. reflexivity.
Qed.

Lemma update_cache_write_inv (p t : string) (w : World)
    (v : json) (f : option exn) :
  In (EvWrite v f) (emitted (update_cache p t w)) ->
  exists d : gmap string json,
    outcome (reload_cache w) = inl (JDict d)
    /\ v = JDict (<[p := JStr t]> d)
    /\ writes (emitted (update_cache p t w)) = [v].
Proof.
  py_world w.
  destruct dk as [|[c|e]]; py_run.
  - destruct dev; py_run; intros H; pick_event H;
      injection H as <- _; exists ∅; auto.
  - destruct c; py_run; try (intros H; pick_event H; fail).
    destruct dev; py_run; intros H; pick_event H;
      injection H as <- _; exists d; auto.
  - destruct (is_JSONDecodeError_or_IOError e); py_run;
      [|intros H; pick_event H].
    destruct dev; py_run; intros H; pick_event H;
      injection H as <- _; exists ∅; auto.
Qed.

(** The caching call that misses, gets an answer and saves it. *)
Lemma call_llm_miss_saved (p : string) (w : World) (text : string)
    (d : gmap string json) :
  outcome (lookup_stage p true w) = inl None ->
  ollama w (configured_model w) p = GenOk text ->
  outcome (reload_cache (after_generate w)) = inl (JDict d) ->
  device w = Writable ->
  outcome (call_llm p true w) = inl (JStr (strip text))
  /\ final (call_llm p true w) =
       set_disk (Present (ReadOk (JDict (<[p := JStr (strip text)]> d))))
         (after_generate w).
Proof.
  intros Hmiss Ho Hr Hdev.
  rewrite (call_llm_live p true w Hmiss), (live_call_ok p true w text Ho).
  cbv zeta.
  destruct (update_cache_saves p (strip text) (after_generate w) d Hr)
    as (Hout & Hfin & _).
  { rewrite device_after_generate. exact Hdev. }
  destruct (update_cache p (strip text) (after_generate w)) as [o w' tr].
  cbn [after outcome emitted final] in *. subst o w'. split; reflexivity.
Qed.

(** X1. A call invokes the endpoint at most once, and only ever with the
    configured model and its own prompt: there is no retry. *)
Theorem call_llm_no_retry (p : string) (u : bool) (w : World) :
  generations (emitted (call_llm p u w)) = []
  \/ generations (emitted (call_llm p u w)) =
       [(configured_model w, p, ollama w (configured_model w) p)].
Proof.
  rewrite call_llm_generations.
  destruct (outcome (lookup_stage p u w)) as [[v|]|e]; auto.
Qed.

(** X2. Whatever a call hands to [json.dump] is the mapping it reloaded
    after a successful endpoint call, with the prompt mapped to the
    stripped response; this happens at most once per call and only with
    caching enabled.  In particular neither a cache hit nor the error
    sentinel is ever written. *)
Theorem call_llm_writes_only_fresh_response (p : string) (u : bool)
    (w : World) (v : json) (f : option exn) :
  In (EvWrite v f) (emitted (call_llm p u w)) ->
  u = true
  /\ exists (text : string) (d : gmap string json),
       ollama w (configured_model w) p = GenOk text
       /\ outcome (reload_cache (after_generate w)) = inl (JDict d)
       /\ v = JDict (<[p := JStr (strip text)]> d)
       /\ writes (emitted (call_llm p u w)) = [v].
Proof.
  rewrite call_llm_run.
  destruct (lookup_stage_frame p u w) as (Hfin & _ & Hlw).
  pose proof (lookup_stage_no_write p u w v f) as Hlook.
  destruct (lookup_stage p u w) as [[[c|]|e] w' tr];
    cbn [after outcome emitted final app] in *;
    try (intros [H|H]; [discriminate H|contradiction]).
  subst w'.
  destruct (ollama w (configured_model w) p) as [text|e] eqn:Ho.
  - rewrite (live_call_ok p u w text Ho). cbv zeta.
    destruct u.
    + pose proof (update_cache_write_inv p (strip text) (after_generate w) v f)
        as Hinv.
      destruct (update_cache p (strip text) (after_generate w)) as [o w' tr'].
      cbn [after outcome emitted final app] in *.
      intros [H|H]; [discriminate H|].
      apply in_app_or in H as [H|H]; [contradiction|].
      pick_event H. destruct (Hinv H) as (d & Hr & Hv & Hwr).
      split; [reflexivity|]. exists text, d. repeat split; auto.
      cbn [writes]. rewrite writes_app, Hlw. cbn [writes app]. exact Hwr.
    + cbn [after outcome emitted final app mret Py_ret py_ret].
      intros [H|H]; [discriminate H|].
      apply in_app_or in H as [H|H]; [contradiction|]. pick_event H.
  - destruct (is_Exception e) eqn:He;
      [rewrite (live_call_raises p u w e Ho He)
      |rewrite (live_call_interrupted p u w e Ho He)];
      cbn [after outcome emitted final app];
      (intros [H|H]; [discriminate H|]);
      (apply in_app_or in H as [H|H]; [contradiction|]); pick_event H.
Qed.

Lemma call_llm_writes_only_fresh_response_witness :
  writes (emitted (call_llm "P" true w_raced)) =
    [JDict (<["P" := JStr "R"]> {["Q" := JStr "x"]})].
Proof.
  destruct (call_llm_writes_only_fresh_response "P" true w_raced
              (JDict (<["P" := JStr "R"]> {["Q" := JStr "x"]})) None)
    as (_ & text & d & _ & _ & _ & Hw).
  - vm_compute. auto 20.
  - exact Hw.
Defined.

(** X3. With caching enabled and a cache file that holds a JSON object,
    the endpoint is invoked exactly when the prompt is not a key of the
    object: the lookup is an exact match on the whole prompt. *)
Theorem call_llm_generates_iff_miss (p : string) (w : World)
    (d : gmap string json) :
  disk w = Present (ReadOk (JDict d)) ->
  generations (emitted (call_llm p true w)) =
    match d !! p with
    | Some _ => []
    | None => [(configured_model w, p, ollama w (configured_model w) p)]
    end.
Proof.
  intros Hd. rewrite call_llm_generations. unfold lookup_stage.
  rewrite lookup_cache_outcome, Hd. destruct (d !! p); reflexivity.
Qed.

Lemma call_llm_generates_iff_miss_witness :
  generations (emitted (call_llm "P " true w_cached)) =
    [("qwen2.5-32k", "P ", GenOk " live answer ")].
Proof.
  exact (call_llm_generates_iff_miss "P " w_cached {["P" := JStr "R"]}
           eq_refl).
Defined.

(** X4. With caching enabled and a cache file that holds the JSON value
    null, a boolean or a number, the membership test of line 53 raises
    TypeError: the call fails before the endpoint is invoked and touches
    nothing. *)
Theorem call_llm_scalar_cache_raises (p : string) (w : World) (v : json) :
  disk w = Present (ReadOk v) ->
  is_container v = false ->
  (exists msg : string,
     outcome (call_llm p true w) = inr (Exn TypeError msg))
  /\ emitted (call_llm p true w) =
       [EvLog INFO [Lit "PROMPT: "; Fmt (JStr p)];
        EvExists true; EvRead (inl v)]
  /\ final (call_llm p true w) = w.
Proof.
  intros Hd Hv. py_world w. subst dk.
  destruct v; try discriminate Hv; py_run; eauto.
Qed.

Lemma call_llm_scalar_cache_raises_witness :
  emitted (call_llm "P" true (set_disk (Present (ReadOk JNull)) w_fresh)) =
    [EvLog INFO [Lit "PROMPT: "; Fmt (JStr "P")];
     EvExists true; EvRead (inl JNull)].
Proof.
  destruct (call_llm_scalar_cache_raises "P"
              (set_disk (Present (ReadOk JNull)) w_fresh) JNull)
    as (_ & He & _); [reflexivity|reflexivity|exact He].
Defined.

(** X5. With caching enabled, a cache file that holds valid JSON other
    than an object, and nobody else touching the file, a call never
    returns a response: it raises TypeError (at the lookup when the prompt
    occurs in the array or string, else at the assignment of line 96,
    after the endpoint has answered); or, when the endpoint call raised,
    it returns the error sentinel for an exception that derives from
    [Exception] and raises the exception itself otherwise.  Nothing is
    written: the file is not repaired. *)
Theorem call_llm_non_object_cache (p : string) (w : World) (v : json) :
  disk w = Present (ReadOk v) ->
  (forall d : gmap string json, v <> JDict d) ->
  others w (disk w) = disk w ->
  writes (emitted (call_llm p true w)) = []
  /\ disk (final (call_llm p true w)) = disk w
  /\ ((exists msg : string,
         outcome (call_llm p true w) = inr (Exn TypeError msg))
      \/ (exists e : exn,
            ollama w (configured_model w) p = GenRaises e
            /\ is_Exception e = true
            /\ outcome (call_llm p true w) = inl (JStr (error_message e)))
      \/ (exists e : exn,
            ollama w (configured_model w) p = GenRaises e
            /\ is_Exception e = false
            /\ outcome (call_llm p true w) = inr e)).
Proof.
  intros Hd Hv Hq. py_world w. subst dk.
  destruct v; py_run; try (repeat split; eauto; fail).
  - destruct (str_contains p s); py_run; [repeat split; eauto|].
    destruct (oll _ p) as [text|e]; py_run;
      [|destruct (is_Exception e) eqn:He]; rewrite ?Hq; py_run;
      repeat split; eauto 10.
  - destruct (existsb (is_str p) l); py_run; [repeat split; eauto|].
    destruct (oll _ p) as [text|e]; py_run;
      [|destruct (is_Exception e) eqn:He]; rewrite ?Hq; py_run;
      repeat split; eauto 10.
  - destruct (Hv d eq_refl).
Qed.

Lemma call_llm_non_object_cache_witness :
  writes (emitted (call_llm "P" true w_listfile)) = []
  /\ disk (final (call_llm "P" true w_listfile)) = Present (ReadOk (JList [])).
Proof.
  destruct (call_llm_non_object_cache "P" w_listfile (JList []))
    as (Hw & Hd & _).
  - reflexivity.
  - intros d H. discriminate H.
  - reflexivity.
  - split; [exact Hw|exact Hd].
Defined.

(** X6. With caching enabled, an exception of the load that is neither
    JSONDecodeError nor IOError is not handled: it leaves [call_llm] right
    after the read, before any endpoint invocation. *)
Theorem call_llm_unhandled_load_exception (p : string) (w : World)
    (e : exn) :
  disk w = Present (ReadRaises e) ->
  is_JSONDecodeError_or_IOError e = false ->
  call_llm p true w =
    mkRun (inr e) w
      [EvLog INFO [Lit "PROMPT: "; Fmt (JStr p)];
       EvExists true; EvRead (inr e)].
Proof.
  intros Hd He. py_world w. subst dk. py_run. rewrite He. reflexivity.
Qed.

Lemma call_llm_unhandled_load_exception_witness :
  outcome (call_llm "P" true w_undecodable) =
    inr (Exn UnicodeDecodeError
           "'utf-8' codec can't decode byte 0xff in position 0: invalid start byte").
Proof.
  rewrite (call_llm_unhandled_load_exception "P" w_undecodable
             (Exn UnicodeDecodeError
                "'utf-8' codec can't decode byte 0xff in position 0: invalid start byte"));
    reflexivity.
Defined.

(** X7. With caching enabled, when the cache file is missing or cannot be
    loaded (IOError or JSONDecodeError), nobody else touches the file, the
    endpoint answers and the write succeeds: after the call the cache file
    holds exactly the one entry for the prompt.  An unloadable file is
    overwritten. *)
Theorem call_llm_replaces_unreadable_cache (p : string) (w : World)
    (text : string) :
  (disk w = Absent
   \/ exists e : exn,
        disk w = Present (ReadRaises e)
        /\ is_JSONDecodeError_or_IOError e = true) ->
  others w (disk w) = disk w ->
  device w = Writable ->
  ollama w (configured_model w) p = GenOk text ->
  outcome (call_llm p true w) = inl (JStr (strip text))
  /\ disk (final (call_llm p true w)) =
       Present (ReadOk (JDict {[p := JStr (strip text)]})).
Proof.
  intros Hd Hq Hdev Ho.
  destruct (call_llm_miss_saved p w text ∅) as (Hout & Hfin); auto.
  - unfold lookup_stage. rewrite lookup_cache_outcome.
    destruct Hd as [->|(e & -> & ->)]; reflexivity.
  - rewrite reload_cache_outcome, disk_after_generate, Hq.
    destruct Hd as [->|(e & -> & ->)]; reflexivity.
  - rewrite Hout, Hfin. split; reflexivity.
Qed.

Lemma call_llm_replaces_unreadable_cache_witness :
  disk (final (call_llm "P" true w_corrupt)) =
    Present (ReadOk (JDict {["P" := JStr "R"]})).
Proof.
  destruct (call_llm_replaces_unreadable_cache "P" w_corrupt "R")
    as (_ & Hd).
  - right.
    exists (Exn JSONDecodeError "Expecting value: line 1 column 1 (char 0)").
    split; reflexivity.
  - reflexivity.
  - reflexivity.
  - reflexivity.
  - exact Hd.
Defined.

(** X8. Caching a new prompt does not disturb the entries already there:
    after a call that missed, got an answer and saved it (nobody else
    touching the file), a call for any prompt that was cached before
    returns its old entry, and a call for the new prompt returns the new
    response, both without invoking the endpoint. *)
Theorem call_llm_miss_keeps_other_entries (p q : string) (w : World)
    (d : gmap string json) (v : json) (text : string) :
  disk w = Present (ReadOk (JDict d)) ->
  d !! p = None ->
  d !! q = Some v ->
  others w (disk w) = disk w ->
  device w = Writable ->
  ollama w (configured_model w) p = GenOk text ->
  let later := final (call_llm p true w) in
  outcome (call_llm q true later) = inl v
  /\ generations (emitted (call_llm q true later)) = []
  /\ outcome (call_llm p true later) = inl (JStr (strip text))
  /\ generations (emitted (call_llm p true later)) = [].
Proof.
  intros Hd Hp Hq Hquiet Hdev Ho later.
  destruct (call_llm_miss_saved p w text d) as (_ & Hfin); auto.
  { unfold lookup_stage. rewrite lookup_cache_outcome, Hd, Hp. reflexivity. }
  { rewrite reload_cache_outcome, disk_after_generate, Hquiet, Hd.
    reflexivity. }
  assert (Hdisk : disk later =
            Present (ReadOk (JDict (<[p := JStr (strip text)]> d)))).
  { unfold later. rewrite Hfin. destruct w; reflexivity. }
  assert (Hpq : p <> q) by congruence.
  rewrite !call_llm_generations, !call_llm_run. unfold lookup_stage.
  rewrite (lookup_cache_hit q later _ v Hdisk),
          (lookup_cache_hit p later _ (JStr (strip text)) Hdisk).
  - repeat split.
  - apply lookup_insert_eq.
  - rewrite lookup_insert_ne; assumption.
Qed.

Lemma call_llm_miss_keeps_other_entries_witness :
  outcome (call_llm "P" true (final (call_llm "Q" true w_cached))) =
    inl (JStr "R")
  /\ generations
       (emitted (call_llm "P" true (final (call_llm "Q" true w_cached))))
     = [].
Proof.
  destruct (call_llm_miss_keeps_other_entries "Q" "P" w_cached
              {["P" := JStr "R"]} (JStr "R") " live answer ")
    as (Ho & Hg & _); try reflexivity.
  split; [exact Ho|exact Hg].
Defined.

Lemma update_cache_truncated (p t : string) (w : World)
    (d : gmap string json) (detail parse_msg : string) :
  outcome (reload_cache w) = inl (JDict d) ->
  device w = DeviceFull detail parse_msg ->
  outcome (update_cache p t w) = inl tt
  /\ final (update_cache p t w) =
       set_disk (Present (ReadRaises (Exn JSONDecodeError parse_msg))) w.
Proof.
  intros Hr Hdev. py_world w. subst dev.
  destruct dk as [|[v|e]]; py_run.
  - auto.
  - injection Hr as ->. auto.
  - destruct (is_JSONDecodeError_or_IOError e); py_run; [auto|discriminate].
Qed.

Lemma update_cache_errors (p t : string) (w : World) :
  logged ERROR (emitted (update_cache p t w)) = []
  \/ exists (v : json) (e : exn),
       In (EvWrite v (Some e)) (emitted (update_cache p t w))
       /\ logged ERROR (emitted (update_cache p t w)) =
            [[Lit "Failed to save cache to '"; Fmt (JStr cache_file);
              Lit "': "; Fmt (JStr (exn_str e))]].
Proof.
  py_world w.
  destruct dk as [|[c|e]]; py_run.
  - destruct dev; py_run; eauto 10.
  - destruct c; py_run; auto. destruct dev; py_run; eauto 10.
  - destruct (is_JSONDecodeError_or_IOError e); py_run; auto.
    destruct dev; py_run; eauto 10.
Qed.

(** X9. A response made of whitespace only is stripped to the empty
    string; the empty string is returned, saved, and served from the cache
    on the next call: the lookup of line 53 tests the key, not the value. *)
Theorem call_llm_blank_response_cached (p : string) (w : World)
    (text : string) (d : gmap string json) :
  outcome (lookup_cache p w) = inl None ->
  ollama w (configured_model w) p = GenOk text ->
  all_space text ->
  outcome (reload_cache (after_generate w)) = inl (JDict d) ->
  device w = Writable ->
  let later := final (call_llm p true w) in
  outcome (call_llm p true w) = inl (JStr "")
  /\ outcome (call_llm p true later) = inl (JStr "")
  /\ generations (emitted (call_llm p true later)) = [].
Proof.
  intros Hmiss Ho Hsp Hr Hdev later.
  destruct (call_llm_miss_saved p w text d Hmiss Ho Hr Hdev) as (Hout & Hfin).
  rewrite (strip_all_space text Hsp) in Hout, Hfin.
  assert (Hdisk : disk later = Present (ReadOk (JDict (<[p := JStr ""]> d)))).
  { unfold later. rewrite Hfin. destruct w; reflexivity. }
  split; [exact Hout|].
  rewrite call_llm_generations, call_llm_run. unfold lookup_stage.
  rewrite (lookup_cache_hit p later _ (JStr "") Hdisk).
  - split; reflexivity.
  - apply lookup_insert_eq.
Qed.

Lemma call_llm_blank_response_cached_witness :
  outcome (call_llm "P" true
             (final (call_llm "P" true
                       (mkWorld ∅ Absent Writable
                          (fun _ _ => GenOk (" " +:+ newline)) quiet)))) =
    inl (JStr "").
Proof.
  destruct (call_llm_blank_response_cached "P"
              (mkWorld ∅ Absent Writable
                 (fun _ _ => GenOk (" " +:+ newline)) quiet)
              (" " +:+ newline) ∅) as (_ & Ho & _);
    [reflexivity|reflexivity| |reflexivity|reflexivity|exact Ho].
  apply (spaces_cons whitespace [" "%char] ["010"%char]);
    [vm_compute; auto 20|].
  apply (spaces_cons whitespace ["010"%char] []);
    [vm_compute; auto 20|constructor].
Defined.

(** X10. The save is not atomic.  When [open] has truncated the cache file
    and the write then fails, the call still returns the response, but the
    file it leaves no longer parses: every later lookup, also for a prompt
    that was cached before, misses. *)
Theorem call_llm_truncated_save_loses_cache (p : string) (w : World)
    (text : string) (d : gmap string json) (detail parse_msg : string) :
  outcome (lookup_cache p w) = inl None ->
  ollama w (configured_model w) p = GenOk text ->
  outcome (reload_cache (after_generate w)) = inl (JDict d) ->
  device w = DeviceFull detail parse_msg ->
  outcome (call_llm p true w) = inl (JStr (strip text))
  /\ disk (final (call_llm p true w)) =
       Present (ReadRaises (Exn JSONDecodeError parse_msg))
  /\ forall q : string,
       outcome (lookup_cache q (final (call_llm p true w))) = inl None.
Proof.
  intros Hmiss Ho Hr Hdev.
  rewrite (call_llm_live p true w Hmiss), (live_call_ok p true w text Ho).
  cbv zeta.
  destruct (update_cache_truncated p (strip text) (after_generate w) d
              detail parse_msg Hr) as (Hout & Hfin).
  { rewrite device_after_generate. exact Hdev. }
  destruct (update_cache p (strip text) (after_generate w)) as [o w' tr].
  cbn [after outcome emitted final] in *. subst o w'.
  assert (Hdisk : disk (set_disk (Present (ReadRaises
                          (Exn JSONDecodeError parse_msg))) (after_generate w))
                  = Present (ReadRaises (Exn JSONDecodeError parse_msg))).
  { destruct w; reflexivity. }
  split; [reflexivity|]. split; [exact Hdisk|].
  intros q. rewrite lookup_cache_outcome, Hdisk. reflexivity.
Qed.

Lemma call_llm_truncated_save_loses_cache_witness :
  outcome (lookup_cache "P"
             (final (call_llm "Q" true
                       (mkWorld ∅ (Present (ReadOk (JDict {["P" := JStr "R"]})))
                          (DeviceFull "[Errno 28] No space left on device"
                                      "Expecting value: line 1 column 1 (char 0)")
                          (fun _ _ => GenOk "S") quiet)))) = inl None.
Proof.
  destruct (call_llm_truncated_save_loses_cache "Q"
              (mkWorld ∅ (Present (ReadOk (JDict {["P" := JStr "R"]})))
                 (DeviceFull "[Errno 28] No space left on device"
                             "Expecting value: line 1 column 1 (char 0)")
                 (fun _ _ => GenOk "S") quiet)
              "S" {["P" := JStr "R"]}
              "[Errno 28] No space left on device"
              "Expecting value: line 1 column 1 (char 0)")
    as (_ & _ & Hq); [reflexivity|reflexivity|reflexivity|reflexivity|].
  exact (Hq "P").
Defined.

(** X11. A call logs at most one record at error severity, and that record
    tells what failed: the endpoint call, with the text of its exception,
    or the write of the cache file, with the text of the write's
    exception.  Every other run logs no error. *)
Theorem call_llm_error_records (p : string) (u : bool) (w : World) :
  logged ERROR (emitted (call_llm p u w)) = []
  \/ (exists e : exn,
        ollama w (configured_model w) p = GenRaises e
        /\ logged ERROR (emitted (call_llm p u w)) =
             [[Lit "Error calling Ollama: "; Fmt (JStr (exn_str e))]])
  \/ (exists (v : json) (e : exn),
        In (EvWrite v (Some e)) (emitted (call_llm p u w))
        /\ logged ERROR (emitted (call_llm p u w)) =
             [[Lit "Failed to save cache to '"; Fmt (JStr cache_file);
               Lit "': "; Fmt (JStr (exn_str e))]]).
Proof.
  rewrite call_llm_run.
  destruct (lookup_stage_frame p u w) as (Hfin & _ & _).
  pose proof (lookup_stage_no_error p u w) as Hle.
  destruct (lookup_stage p u w) as [[[c|]|e] w' tr];
    cbn [after outcome emitted final app logged] in *; auto.
  subst w'.
  destruct (ollama w (configured_model w) p) as [text|e] eqn:Ho.
  - rewrite (live_call_ok p u w text Ho). cbv zeta.
    destruct u.
    + destruct (update_cache_errors p (strip text) (after_generate w))
        as [Hnone|(v & e & Hin & Hlog)];
        destruct (update_cache p (strip text) (after_generate w))
          as [o w' tr'];
        cbn [after outcome emitted final app logged] in *;
        rewrite logged_app, Hle; cbn [logged app].
      * left. exact Hnone.
      * right. right. exists v, e. split; [|exact Hlog].
        right. apply in_or_app. right. do 3 right. exact Hin.
    + cbn [after outcome emitted final app logged mret Py_ret py_ret].
      rewrite logged_app, Hle. left. reflexivity.
  - destruct (is_Exception e) eqn:He.
    + rewrite (live_call_raises p u w e Ho He).
      cbn [after outcome emitted final app logged].
      rewrite logged_app, Hle. right. left. exists e. split; reflexivity.
    + rewrite (live_call_interrupted p u w e Ho He).
      cbn [after outcome emitted final app logged].
      rewrite logged_app, Hle. left. reflexivity.
Qed.

(** ** The logger set-up *)

Lemma import_module_handlers (env : Importer) (lg : logger) :
  length (lg_handlers lg) <= 1 ->
  length (lg_handlers (logger_after (import_module env lg))) <= 1
  /\ (import_outcome (import_module env lg) = inl tt ->
      length (lg_handlers (logger_after (import_module env lg))) = 1
      /\ lg_level (logger_after (import_module env lg)) = logging_INFO
      /\ lg_propagate (logger_after (import_module env lg)) = false).
Proof.
  intros Hle. unfold import_module.
  destruct (os_makedirs env _) as [e|].
  - cbn. split; [exact Hle|discriminate].
  - destruct (lg_handlers lg) as [|h hs] eqn:Hh.
    + destruct (open_refused env _) as [e|]; cbn; split;
        auto; discriminate.
    + cbn in *. split; [exact Hle|]. intros _.
      destruct hs; [auto|]. cbn in Hle. lia.
Qed.

Lemma reimport_handlers_bound (envs : list Importer) (lg : logger) :
  length (lg_handlers lg) <= 1 ->
  length (lg_handlers (reimport envs lg)) <= 1.
Proof.
  revert lg. induction envs as [|env envs IH]; intros lg Hle; [exact Hle|].
  cbn [reimport]. apply IH, import_module_handlers, Hle.
Qed.

(** X12. However often the module is imported or reloaded in a process,
    and whatever the surroundings of each import, the logger never has
    more than one handler; and every import that succeeds leaves it with
    exactly one, at level INFO and not propagating. *)
Theorem import_single_handler (envs : list Importer) (env : Importer) :
  let r := import_module env (reimport envs new_logger) in
  length (lg_handlers (logger_after r)) <= 1
  /\ (import_outcome r = inl tt ->
      length (lg_handlers (logger_after r)) = 1
      /\ lg_level (logger_after r) = logging_INFO
      /\ lg_propagate (logger_after r) = false).
Proof.
  cbv zeta. apply import_module_handlers, reimport_handlers_bound.
  cbn. lia.
Qed.

Lemma import_single_handler_witness :
  length (lg_handlers
            (logger_after
               (import_module import_next_day
                  (reimport [import_first] new_logger)))) = 1.
Proof.
  destruct (import_single_handler [import_first] import_next_day)
    as (_ & H).
  destruct (H eq_refl) as (Hlen & _). exact Hlen.
Defined.

(** X13. Once the logger has a handler, later imports keep it and open no
    file: a reload under another LOG_DIR or on another day goes on
    logging to the first file. *)
Theorem reimport_keeps_first_handler (envs : list Importer) (lg : logger)
    (h : handler) (hs : list handler) :
  lg_handlers lg = h :: hs ->
  lg_handlers (reimport envs lg) = h :: hs
  /\ forall env : Importer,
       opened (fs_events (import_module env (reimport envs lg))) = [].
Proof.
  revert lg. induction envs as [|env envs IH]; intros lg Hh.
  - split; [exact Hh|]. intros env. unfold import_module.
    destruct (os_makedirs env _); [reflexivity|]. cbn [reimport].
    rewrite Hh. reflexivity.
  - cbn [reimport]. apply IH. unfold import_module.
    destruct (os_makedirs env _); [exact Hh|]. rewrite Hh. reflexivity.
Qed.

Lemma reimport_keeps_first_handler_witness :
  lg_handlers (reimport [import_first; import_next_day] new_logger) =
    [FileHandler "logs/llm_calls_20250101.log"
       "%(asctime)s - %(levelname)s - %(message)s"].
Proof.
  apply (reimport_keeps_first_handler [import_next_day]
           (logger_after (import_module import_first new_logger))
           (FileHandler "logs/llm_calls_20250101.log"
              "%(asctime)s - %(levelname)s - %(message)s") []).
  reflexivity.
Defined.

(** X14. With LOG_DIR set to the empty string the import fails: the
    directory cannot be created, the OSError leaves the module, no file is
    opened and the logger is not configured. *)
Theorem import_empty_log_dir_fails (env : Importer) (lg : logger) :
  imp_environ env !! "LOG_DIR" = Some "" ->
  (exists e : exn,
     exn_cls e = OSError /\ import_outcome (import_module env lg) = inr e)
  /\ logger_after (import_module env lg) = lg
  /\ opened (fs_events (import_module env lg)) = [].
Proof.
  intros Henv. unfold import_module. rewrite Henv.
  cbn [os_makedirs import_outcome logger_after fs_events opened].
  split; [|split; reflexivity].
  exists (Exn OSError "[Errno 2] No such file or directory: ''").
  split; reflexivity.
Qed.

Lemma import_empty_log_dir_fails_witness :
  logger_after
    (import_module
       (mkImporter {["LOG_DIR" := ""]} "20250101"
          (fun _ => None) (fun _ => None)) new_logger) = new_logger.
Proof.
  apply (import_empty_log_dir_fails
           (mkImporter {["LOG_DIR" := ""]} "20250101"
              (fun _ => None) (fun _ => None)) new_logger).
  reflexivity.
Defined.

(** A trailing slash of LOG_DIR is not doubled in the path of the log
    file. *)
Example import_log_file_example :
  map filename
    (lg_handlers (logger_after (import_module import_next_day new_logger)))
  = ["/var/log/llm/llm_calls_20250102.log"]
  /\ map filename
       (lg_handlers (logger_after (import_module import_first new_logger)))
     = ["logs/llm_calls_20250101.log"].
Proof. split; reflexivity. Qed.

(** ** The self-test *)







